(** * WasbTaskHandler: remote task-log handler over an Azure blob store

    A shallow embedding of
    [airflow/providers/microsoft/azure/log/wasb_task_handler.py].

    The handler is stateful Python: methods mutate [self], call into the
    blob-store hook, the parent [FileTaskHandler], the local file system and
    the logger, and may raise.  Methods are therefore embedded as
    computations in a state-and-exception monad that also records, as a
    writer, every call leaving the handler (the trace a mocked collaborator
    would record). *)

From Stdlib Require Import Ascii String ZArith.
From stdpp Require Import base option list strings pretty gmap.

Local Open Scope string_scope.
Local Open Scope Z_scope.

(** ** Python strings and [os.path] *)

Definition nl : string := String "010"%char EmptyString.
Definition sep : string := "/".

Definition is_empty (s : string) : bool :=
  match s with EmptyString => true | String _ _ => false end.

(** [str.startswith] *)
Definition startswith (s p : string) : bool := String.prefix p s.

(** [s.endswith('/')] *)
Fixpoint endswith_sep (s : string) : bool :=
  match s with
  | EmptyString => false
  | String c EmptyString => Ascii.eqb c "/"%char
  | String _ s' => endswith_sep s'
  end.

(** [posixpath.join(a, b)] for one component [b]:
    [if b.startswith(sep): path = b
     elif not path or path.endswith(sep): path += b
     else: path += sep + b]. *)
Definition os_path_join (a b : string) : string :=
  if startswith b sep then b
  else if is_empty a || endswith_sep a then a +:+ b
  else a +:+ sep +:+ b.

(** [p[:p.rfind('/') + 1]]: the longest prefix of [p] that ends with a
    separator, empty when [p] holds none. *)
Fixpoint upto_last_sep (p : string) : string :=
  match p with
  | EmptyString => EmptyString
  | String c p' =>
      let h := upto_last_sep p' in
      if is_empty h
      then (if Ascii.eqb c "/"%char then sep else EmptyString)
      else String c h
  end.

(** [head != sep * len(head)] is the negation of this test. *)
Fixpoint all_sep (s : string) : bool :=
  match s with
  | EmptyString => true
  | String c s' => Ascii.eqb c "/"%char && all_sep s'
  end.

(** [s.rstrip('/')] *)
Fixpoint rstrip_sep (s : string) : string :=
  match s with
  | EmptyString => EmptyString
  | String c s' =>
      let r := rstrip_sep s' in
      if is_empty r && Ascii.eqb c "/"%char then EmptyString else String c r
  end.

(** [posixpath.dirname(p)]:
    [head = p[:p.rfind(sep) + 1]
     if head and head != sep * len(head): head = head.rstrip(sep)]. *)
Definition os_path_dirname (p : string) : string :=
  let head := upto_last_sep p in
  if negb (is_empty head) && negb (all_sep head) then rstrip_sep head else head.

Arguments os_path_join : simpl never.
Arguments os_path_dirname : simpl never.

Example join_1 : os_path_join "/logs" "d/t/1.log" = "/logs/d/t/1.log".
Proof. reflexivity. Qed.
Example join_2 : os_path_join "/logs/" "d/t/1.log" = "/logs/d/t/1.log".
Proof. reflexivity. Qed.
Example join_3 : os_path_join "/logs" "/abs/1.log" = "/abs/1.log".
Proof. reflexivity. Qed.
Example join_4 : os_path_join "/logs" EmptyString = "/logs/".
Proof. reflexivity. Qed.
Example join_5 : os_path_join EmptyString "x" = "x".
Proof. reflexivity. Qed.
Example dirname_1 : os_path_dirname "/logs/d/t/1.log" = "/logs/d/t".
Proof. reflexivity. Qed.
Example dirname_2 : os_path_dirname "/logs/" = "/logs".
Proof. reflexivity. Qed.
Example dirname_3 : os_path_dirname "/x" = "/".
Proof. reflexivity. Qed.
Example dirname_4 : os_path_dirname "x" = EmptyString.
Proof. reflexivity. Qed.
Example dirname_5 : os_path_dirname "//x" = "//".
Proof. reflexivity. Qed.
Example dirname_6 : os_path_dirname "a//b" = "a".
Proof. reflexivity. Qed.

(** ** Exceptions and results *)

(** The exception classes that matter to the handler's [except] clauses.
    All are subclasses of [Exception]; interpreter-exit signals
    ([BaseException] only) are outside the model. *)
Inductive exn : Type :=
| AzureHttpError
| AttributeError
| OSError
| RuntimeError.

(** [except AzureHttpError] *)
Definition is_AzureHttpError (e : exn) : bool :=
  match e with AzureHttpError => true | _ => false end.

(** [except Exception] *)
Definition is_Exception (e : exn) : bool := true.

Inductive result (A : Type) : Type :=
| Ok (a : A)
| Raise (e : exn).
Arguments Ok {A} a.
Arguments Raise {A} e.

(** ** External collaborators *)

(** The task instance, as far as the handler looks at it. *)
Record TaskInstance : Type := {
  dag_id : string;
  task_id : string;
  try_number : Z;
  raw : bool
}.

(** [WasbHook], over a remote backend state [R]. Each operation may raise. *)
Record WasbHook (R : Type) : Type := {
  check_for_blob : string -> string -> R -> result bool * R;
  read_file : string -> string -> R -> result string * R;
  load_string : string -> string -> string -> bool -> R -> result unit * R
}.
Arguments check_for_blob {R} _ _ _ _.
Arguments read_file {R} _ _ _ _.
Arguments load_string {R} _ _ _ _ _ _.

(** Everything else the handler calls and that lives outside the file:
    configuration, the hook constructor, the parent [FileTaskHandler]
    (template rendering, [set_context], [close], [_read]) acting on a local
    state [L], and the three file-system calls of [close]. *)
Class Collaborators (R L : Type) : Type := {
  conf_remote_log_conn_id : string;
  new_WasbHook : string -> result (WasbHook R);
  render_filename : TaskInstance -> Z -> string;
  parent_set_context : TaskInstance -> L -> L;
  parent_close : L -> L;
  parent_read :
    TaskInstance -> Z -> option string -> L -> (string * gmap string bool) * L;
  path_exists : string -> L -> bool;
  open_read : string -> L -> result string;
  rmtree : string -> L -> result unit * L
}.

(** ** The trace of calls *)

(** One event per call that leaves the handler, in program order, plus one
    on entry to each of the three remote primitives (what patching the
    method with a mock would record). *)
Inductive Event : Type :=
| SuperSetContext (ti : TaskInstance)
| SuperClose
| SuperRead (ti : TaskInstance) (try_num : Z) (metadata : option string)
| PathExists (path : string)
| OpenRead (path : string)
| Rmtree (path : string)
| NewWasbHook (conn_id : string)
| CheckForBlob (container path : string)
| ReadFile (container path : string)
| LoadString (text container path : string) (overwrite : bool)
| LogHookFailed (conn_id : string)
| LogCheckFailed (e : exn)
| LogReadFailed (msg : string)
| LogWriteFailed (path : string)
| Call_wasb_log_exists (path : string)
| Call_wasb_read (path : string) (return_error : bool)
| Call_wasb_write (log path : string) (append : bool).

Definition is_LoadString (e : Event) : bool :=
  match e with LoadString _ _ _ _ => true | _ => false end.
Definition is_Call_wasb_write (e : Event) : bool :=
  match e with Call_wasb_write _ _ _ => true | _ => false end.
Definition is_Rmtree (e : Event) : bool :=
  match e with Rmtree _ => true | _ => false end.
Definition is_OpenRead (e : Event) : bool :=
  match e with OpenRead _ => true | _ => false end.
Definition is_SuperClose (e : Event) : bool :=
  match e with SuperClose => true | _ => false end.
Definition is_SuperRead (e : Event) : bool :=
  match e with SuperRead _ _ _ => true | _ => false end.

(** ** Handler state *)

(** The instance attributes set by [__init__]. [hook_cache] is the slot of
    the [cached_property]: [None] before the first access, [Some v] once the
    property body has returned [v] (which is [None] when construction
    failed). The attribute [_hook] is assigned in [__init__] and never read;
    it is left out. [delete_local_copy] is only ever tested for truth. *)
Record Handler (R : Type) : Type := {
  local_base : string;
  wasb_container : string;
  remote_base : string;
  log_relative_path : string;
  hook_cache : option (option (WasbHook R));
  closed : bool;
  upload_on_close : bool;
  delete_local_copy : bool
}.
Arguments local_base {R} _.
Arguments wasb_container {R} _.
Arguments remote_base {R} _.
Arguments log_relative_path {R} _.
Arguments hook_cache {R} _.
Arguments closed {R} _.
Arguments upload_on_close {R} _.
Arguments delete_local_copy {R} _.

Record State (R L : Type) : Type := {
  self : Handler R;
  remote : R;
  localst : L
}.
Arguments self {R L} _.
Arguments remote {R L} _.
Arguments localst {R L} _.

(** ** The monad: state, exceptions, and the emitted trace *)

Definition M (R L A : Type) : Type :=
  State R L -> result A * State R L * list Event.

Definition res {R L A} (o : result A * State R L * list Event) : result A :=
  fst (fst o).
Definition post {R L A} (o : result A * State R L * list Event) : State R L :=
  snd (fst o).
Definition events {R L A} (o : result A * State R L * list Event) : list Event :=
  snd o.

Definition ret {R L A} (a : A) : M R L A := fun s => (Ok a, s, []).

Definition raise {R L A} (e : exn) : M R L A := fun s => (Raise e, s, []).

Definition bind {R L A B} (m : M R L A) (f : A -> M R L B) : M R L B :=
  fun s =>
    match m s with
    | (Ok a, s1, t1) => let '(r, s2, t2) := f a s1 in (r, s2, (t1 ++ t2)%list)
    | (Raise e, s1, t1) => (Raise e, s1, t1)
    end.

(** [try: m  except <handles> as e: handler e] *)
Definition try_except {R L A}
    (m : M R L A) (handles : exn -> bool) (handler : exn -> M R L A) : M R L A :=
  fun s =>
    match m s with
    | (Ok a, s1, t1) => (Ok a, s1, t1)
    | (Raise e, s1, t1) =>
        if handles e
        then let '(r, s2, t2) := handler e s1 in (r, s2, (t1 ++ t2)%list)
        else (Raise e, s1, t1)
    end.

Definition emit {R L} (e : Event) : M R L unit := fun s => (Ok tt, s, [e]).

Definition get_self {R L} : M R L (Handler R) := fun s => (Ok (self s), s, []).

Definition put_self {R L} (h : Handler R) : M R L unit :=
  fun s => (Ok tt, {| self := h; remote := remote s; localst := localst s |}, []).

(** A call on the remote backend, recorded as [e]. *)
Definition on_remote {R L A} (e : Event) (f : R -> result A * R) : M R L A :=
  fun s =>
    let '(r, b) := f (remote s) in
    (r, {| self := self s; remote := b; localst := localst s |}, [e]).

(** A call on the local side (parent handler, file system), recorded as [e]. *)
Definition on_local {R L A} (e : Event) (f : L -> result A * L) : M R L A :=
  fun s =>
    let '(r, l) := f (localst s) in
    (r, {| self := self s; remote := remote s; localst := l |}, [e]).

Notation "x <- m ;; k" := (bind m (fun x => k))
  (at level 20, m at level 99, k at level 200, only parsing).
Notation "m ;;; k" := (bind m (fun _ => k))
  (at level 100, k at level 200, right associativity, only parsing).

(** ** The handler *)

Section WasbTaskHandler.
Context {R L : Type} `{C : Collaborators R L}.

Local Abbreviation Mon := (M R L).

(** Modelled from the spec: the parent constructor
    [FileTaskHandler.__init__], not in the file, keeps [base_log_folder] as
    the local root that [close] reads back as [self.local_base]. *)
Definition FileTaskHandler_init (base_log_folder : string) : string :=
  base_log_folder.

(** [WasbTaskHandler.__init__] *)
Definition init (base_log_folder wasb_log_folder container : string)
    (delete_local : bool) : Handler R :=
  {| local_base := FileTaskHandler_init base_log_folder;
     wasb_container := container;
     remote_base := wasb_log_folder;
     log_relative_path := EmptyString;
     hook_cache := None;
     closed := false;
     upload_on_close := true;
     delete_local_copy := delete_local |}.

Definition set_hook_cache (v : option (WasbHook R)) : Mon unit :=
  h <- get_self ;;
  put_self {| local_base := local_base h;
              wasb_container := wasb_container h;
              remote_base := remote_base h;
              log_relative_path := log_relative_path h;
              hook_cache := Some v;
              closed := closed h;
              upload_on_close := upload_on_close h;
              delete_local_copy := delete_local_copy h |}.

Definition set_log_relative_path (p : string) : Mon unit :=
  h <- get_self ;;
  put_self {| local_base := local_base h;
              wasb_container := wasb_container h;
              remote_base := remote_base h;
              log_relative_path := p;
              hook_cache := hook_cache h;
              closed := closed h;
              upload_on_close := upload_on_close h;
              delete_local_copy := delete_local_copy h |}.

Definition set_upload_on_close (b : bool) : Mon unit :=
  h <- get_self ;;
  put_self {| local_base := local_base h;
              wasb_container := wasb_container h;
              remote_base := remote_base h;
              log_relative_path := log_relative_path h;
              hook_cache := hook_cache h;
              closed := closed h;
              upload_on_close := b;
              delete_local_copy := delete_local_copy h |}.

Definition set_closed (b : bool) : Mon unit :=
  h <- get_self ;;
  put_self {| local_base := local_base h;
              wasb_container := wasb_container h;
              remote_base := remote_base h;
              log_relative_path := log_relative_path h;
              hook_cache := hook_cache h;
              closed := b;
              upload_on_close := upload_on_close h;
              delete_local_copy := delete_local_copy h |}.

(** The constructor call [WasbHook(remote_conn_id)]. *)
Definition WasbHook_call (conn_id : string) : Mon (WasbHook R) :=
  emit (NewWasbHook conn_id) ;;;
  match new_WasbHook conn_id with
  | Ok k => ret k
  | Raise e => raise e
  end.

(** The cached property [hook]: the body runs on the first access and
    its return value, a hook or [None], is stored; an exception other
    than [AzureHttpError] escapes and stores nothing. *)
Definition hook : Mon (option (WasbHook R)) :=
  h <- get_self ;;
  match hook_cache h with
  | Some v => ret v
  | None =>
      let remote_conn_id := conf_remote_log_conn_id in
      v <- try_except
             (k <- WasbHook_call remote_conn_id ;; ret (Some k))
             is_AzureHttpError
             (fun _ => emit (LogHookFailed remote_conn_id) ;;; ret None) ;;
      set_hook_cache v ;;;
      ret v
  end.

(** [self.hook.check_for_blob(container, path)]; attribute access on
    [None] raises [AttributeError]. *)
Definition hook_check_for_blob (container path : string) : Mon bool :=
  k <- hook ;;
  match k with
  | None => raise AttributeError
  | Some k => on_remote (CheckForBlob container path) (check_for_blob k container path)
  end.

(** [self.hook.read_file(container, path)] *)
Definition hook_read_file (container path : string) : Mon string :=
  k <- hook ;;
  match k with
  | None => raise AttributeError
  | Some k => on_remote (ReadFile container path) (read_file k container path)
  end.

(** [self.hook.load_string(text, container, path, overwrite=...)] *)
Definition hook_load_string (text container path : string) (overwrite : bool)
    : Mon unit :=
  k <- hook ;;
  match k with
  | None => raise AttributeError
  | Some k =>
      on_remote (LoadString text container path overwrite)
                (load_string k text container path overwrite)
  end.

(** [WasbTaskHandler.set_context] *)
Definition set_context (ti : TaskInstance) : Mon unit :=
  on_local (SuperSetContext ti) (fun l => (Ok tt, parent_set_context ti l)) ;;;
  set_log_relative_path (render_filename ti (try_number ti)) ;;;
  set_upload_on_close (negb (raw ti)).

(** [WasbTaskHandler.wasb_log_exists] *)
Definition wasb_log_exists (remote_log_location : string) : Mon bool :=
  emit (Call_wasb_log_exists remote_log_location) ;;;
  try_except
    (h <- get_self ;;
     hook_check_for_blob (wasb_container h) remote_log_location)
    is_Exception
    (fun e => emit (LogCheckFailed e) ;;; ret false).

(** [WasbTaskHandler.wasb_read] *)
Definition wasb_read (remote_log_location : string) (return_error : bool)
    : Mon string :=
  emit (Call_wasb_read remote_log_location return_error) ;;;
  try_except
    (h <- get_self ;;
     hook_read_file (wasb_container h) remote_log_location)
    is_AzureHttpError
    (fun _ =>
       let msg := "Could not read logs from " +:+ remote_log_location in
       emit (LogReadFailed msg) ;;;
       if return_error then ret msg else ret EmptyString).

(** [WasbTaskHandler.wasb_write] *)
Definition wasb_write (log remote_log_location : string) (append : bool)
    : Mon unit :=
  emit (Call_wasb_write log remote_log_location append) ;;;
  log <- (if append
          then
            present <- wasb_log_exists remote_log_location ;;
            if present
            then
              old_log <- wasb_read remote_log_location false ;;
              ret (if is_empty old_log then log else old_log +:+ nl +:+ log)
            else ret log
          else ret log) ;;
  try_except
    (h <- get_self ;;
     hook_load_string log (wasb_container h) remote_log_location true)
    is_AzureHttpError
    (fun _ => emit (LogWriteFailed remote_log_location)).

(** [WasbTaskHandler.close] *)
Definition close : Mon unit :=
  h <- get_self ;;
  if closed h then ret tt
  else
    on_local SuperClose (fun l => (Ok tt, parent_close l)) ;;;
    h <- get_self ;;
    if negb (upload_on_close h) then ret tt
    else
      let local_loc := os_path_join (local_base h) (log_relative_path h) in
      let remote_loc := os_path_join (remote_base h) (log_relative_path h) in
      present <- on_local (PathExists local_loc)
                   (fun l => (Ok (path_exists local_loc l), l)) ;;
      (if present
       then
         log <- on_local (OpenRead local_loc) (fun l => (open_read local_loc l, l)) ;;
         wasb_write log remote_loc true ;;;
         h <- get_self ;;
         if delete_local_copy h
         then on_local (Rmtree (os_path_dirname local_loc))
                       (rmtree (os_path_dirname local_loc))
         else ret tt
       else ret tt) ;;;
      set_closed true.

(** [WasbTaskHandler._read] *)
Definition _read (ti : TaskInstance) (try_num : Z) (metadata : option string)
    : Mon (string * gmap string bool) :=
  let log_relative_path := render_filename ti try_num in
  h <- get_self ;;
  let remote_loc := os_path_join (remote_base h) log_relative_path in
  present <- wasb_log_exists remote_loc ;;
  if present
  then
    remote_log <- wasb_read remote_loc true ;;
    let log := "*** Reading remote log from " +:+ remote_loc +:+ "." +:+ nl
               +:+ remote_log +:+ nl in
    ret (log, {[ "end_of_log" := true ]})
  else
    on_local (SuperRead ti try_num None)
             (fun l => let '(r, l') := parent_read ti try_num None l in (Ok r, l')).

End WasbTaskHandler.

(** ** Trace predicates *)

Definition no_events (t : list Event) : bool :=
  match t with [] => true | _ :: _ => false end.

(** Scans a trace of [close]. A directory removal must come after the
    local file was opened ([seen_read]) and, after that, [wasb_write] was
    entered ([seen_write]); nothing may follow the removal. *)
Fixpoint rmtree_after_upload (seen_read seen_write : bool) (t : list Event) : bool :=
  match t with
  | [] => true
  | OpenRead _ :: t' => rmtree_after_upload true seen_write t'
  | Call_wasb_write _ _ _ :: t' => rmtree_after_upload seen_read seen_read t'
  | Rmtree _ :: t' => seen_read && seen_write && no_events t'
  | _ :: t' => rmtree_after_upload seen_read seen_write t'
  end.

(** No remote write is entered or performed and nothing is deleted. *)
Definition no_upload_no_delete (t : list Event) : bool :=
  forallb (fun e => negb (is_Call_wasb_write e || is_LoadString e || is_Rmtree e)) t.

(** No directory is removed. *)
Definition no_rmtree (t : list Event) : bool :=
  forallb (fun e => negb (is_Rmtree e)) t.

(** The parent's reader is not called. *)
Definition no_local_read (t : list Event) : bool :=
  forallb (fun e => negb (is_SuperRead e)) t.

(** [wasb_write] is entered somewhere in the trace. *)
Definition upload_attempted (t : list Event) : bool := existsb is_Call_wasb_write t.

Section StatedProperties.
Context {R L : Type} `{C : Collaborators R L}.

(** Idempotent close as the specification words it: after a first [close]
    the flag is set, and a second [close] returns, emits nothing and leaves
    the state as it found it. *)
Definition close_twice_is_noop (st : State R L) : Prop :=
  let st1 := post (close st) in
  closed (self st1) = true /\ close st1 = (Ok tt, st1, []).

(** The fallback of [_read] as the specification words it: the parent is
    given the caller's metadata token and its answer is returned as is. *)
Definition fallback_passes_metadata (st : State R L) (ti : TaskInstance)
    (n : Z) (metadata : option string) : Prop :=
  let st1 := post (wasb_log_exists
                     (os_path_join (remote_base (self st)) (render_filename ti n)) st) in
  res (_read ti n metadata st) = Ok (fst (parent_read ti n metadata (localst st1))).

(** A log file exists at [path]: the path exists and opens as a file. *)
Definition local_file_exists (path : string) (l : L) : Prop :=
  path_exists path l = true /\ exists log, open_read path l = Ok log.

End StatedProperties.

(** ** An in-memory blob store and local file system

    Concrete collaborators on which the handler can be run: blobs keyed by
    container and path, local files keyed by path. *)

Definition mem_hook : WasbHook (gmap (string * string) string) :=
  {| check_for_blob := fun c p r => (Ok (bool_decide (is_Some (r !! (c, p)))), r);
     read_file := fun c p r =>
       match r !! (c, p) with
       | Some text => (Ok text, r)
       | None => (Raise AzureHttpError, r)
       end;
     load_string := fun text c p overwrite r =>
       if overwrite || negb (bool_decide (is_Some (r !! (c, p))))
       then (Ok tt, <[(c, p) := text]> r)
       else (Raise AzureHttpError, r) |}.

(** A hook that sees every blob but whose reads and writes raise [e]. *)
Definition failing_hook (e : exn) : WasbHook (gmap (string * string) string) :=
  {| check_for_blob := fun c p r => (Ok true, r);
     read_file := fun c p r => (Raise e, r);
     load_string := fun text c p overwrite r => (Raise e, r) |}.

(** A hook whose existence check raises [e]. *)
Definition unreachable_hook (e : exn) : WasbHook (gmap (string * string) string) :=
  {| check_for_blob := fun c p r => (Raise e, r);
     read_file := fun c p r => (Raise e, r);
     load_string := fun text c p overwrite r => (Raise e, r) |}.

Definition test_render (ti : TaskInstance) (n : Z) : string :=
  dag_id ti +:+ "/" +:+ task_id ti +:+ "/" +:+ pretty n +:+ ".log".

Definition under_dir (d path : string) : bool :=
  startswith path (if endswith_sep d then d else d +:+ sep).

Definition test_path_exists (p : string) (l : gmap string string) : bool :=
  bool_decide (is_Some (l !! p))
  || existsb (fun kv => under_dir p (fst kv)) (map_to_list l).

Definition test_rmtree (d : string) (l : gmap string string)
    : result unit * gmap string string :=
  if existsb (fun kv => under_dir d (fst kv)) (map_to_list l)
  then (Ok tt, filter (fun kv => under_dir d (fst kv) = false) l)
  else (Raise OSError, l).

(** The local reader of the test parent: the file under [/logs], prefixed
    by the metadata token when one is passed. *)
Definition test_parent_read (ti : TaskInstance) (n : Z) (metadata : option string)
    (l : gmap string string) : (string * gmap string bool) * gmap string string :=
  (default EmptyString metadata
     +:+ default EmptyString (l !! os_path_join "/logs" (test_render ti n)),
   {[ "end_of_log" := true ]}, l).

Definition test_env (ctor : result (WasbHook (gmap (string * string) string)))
    : Collaborators (gmap (string * string) string) (gmap string string) :=
  {| conf_remote_log_conn_id := "wasb_default";
     new_WasbHook := fun _ => ctor;
     render_filename := test_render;
     parent_set_context := fun _ l => l;
     parent_close := fun l => l;
     parent_read := test_parent_read;
     path_exists := test_path_exists;
     open_read := fun p l =>
       match l !! p with Some text => Ok text | None => Raise OSError end;
     rmtree := test_rmtree |}.

Definition ti1 : TaskInstance :=
  {| dag_id := "d"; task_id := "t"; try_number := 1; raw := false |}.

Definition ti1_raw : TaskInstance :=
  {| dag_id := "d"; task_id := "t"; try_number := 1; raw := true |}.

Definition fresh_state (delete_local : bool) (r : gmap (string * string) string)
    (l : gmap string string)
    : State (gmap (string * string) string) (gmap string string) :=
  {| self := init "/logs" "wasb-logs" "airflow-logs" delete_local;
     remote := r;
     localst := l |}.

Definition one_local_file : gmap string string :=
  {[ "/logs/d/t/1.log" := "line1" +:+ nl +:+ "line2" ]}.

(** The three environments of the examples: a working store, a hook that
    cannot be constructed, and a hook whose reads and writes raise. *)
Definition env_ok := test_env (Ok mem_hook).
Definition env_no_hook := test_env (Raise AzureHttpError).
Definition env_failing (e : exn) := test_env (Ok (failing_hook e)).
Definition env_unreachable (e : exn) := test_env (Ok (unreachable_hook e)).

(** A handler after [set_context] for try 1 of task [d/t], with the local
    log written; once for a normal run and once for a raw run. *)
Definition st_ready : State (gmap (string * string) string) (gmap string string) :=
  post (set_context (C := env_ok) ti1 (fresh_state true ∅ one_local_file)).

Definition st_raw : State (gmap (string * string) string) (gmap string string) :=
  post (set_context (C := env_ok) ti1_raw (fresh_state true ∅ one_local_file)).

Definition one_blob (text : string) : gmap (string * string) string :=
  {[ ("airflow-logs", "wasb-logs/d/t/1.log") := text ]}.

(** A fresh handler facing a remote that already holds ["A"] at the log's
    location, and one facing an empty remote. *)
Definition st_blob_A : State (gmap (string * string) string) (gmap string string) :=
  fresh_state false (one_blob "A") one_local_file.

Definition st_fresh : State (gmap (string * string) string) (gmap string string) :=
  fresh_state true ∅ one_local_file.

(** ** Further trace predicates *)

Definition is_NewWasbHook (e : Event) : bool :=
  match e with NewWasbHook _ => true | _ => false end.
Definition is_LogHookFailed (e : Event) : bool :=
  match e with LogHookFailed _ => true | _ => false end.
Definition is_CheckForBlob (e : Event) : bool :=
  match e with CheckForBlob _ _ => true | _ => false end.
Definition is_ReadFile (e : Event) : bool :=
  match e with ReadFile _ _ => true | _ => false end.

(** The hook constructor is not called and no construction failure is
    logged. *)
Definition no_hook_construction (t : list Event) : bool :=
  forallb (fun e => negb (is_NewWasbHook e || is_LogHookFailed e)) t.

(** How often the hook constructor is called. *)
Definition hook_constructions (t : list Event) : nat :=
  length (filter (fun e => is_NewWasbHook e = true) t).

(** The remote store is neither probed nor read. *)
Definition no_remote_lookup (t : list Event) : bool :=
  forallb (fun e => negb (is_CheckForBlob e || is_ReadFile e)) t.

(** Two handlers that agree on what a read can look at: the remote root,
    the container and the hook slot, and the local root kept by the
    parent. *)
Definition same_read_side {R : Type} (h h' : Handler R) : Prop :=
  remote_base h = remote_base h' /\ wasb_container h = wasb_container h' /\
  hook_cache h = hook_cache h' /\ local_base h = local_base h'.

Definition ti2 : TaskInstance :=
  {| dag_id := "d"; task_id := "t"; try_number := 2; raw := false |}.

(** ** A one-blob store

    The smallest surroundings the handler runs in: the remote store holds
    at most one blob and the local disk at most one file, whatever their
    names. *)

Definition cell_hook : WasbHook (option string) :=
  {| check_for_blob := fun _ _ r =>
       (Ok (match r with Some _ => true | None => false end), r);
     read_file := fun _ _ r =>
       match r with
       | Some text => (Ok text, r)
       | None => (Raise AzureHttpError, r)
       end;
     load_string := fun text _ _ _ _ => (Ok tt, Some text) |}.

(** The same store behind a hook whose read raises [e]. *)
Definition cell_hook_unreadable (e : exn) : WasbHook (option string) :=
  {| check_for_blob := check_for_blob cell_hook;
     read_file := fun _ _ r => (Raise e, r);
     load_string := load_string cell_hook |}.

(** A hook whose existence check raises [e]. *)
Definition cell_hook_unreachable (e : exn) : WasbHook (option string) :=
  {| check_for_blob := fun _ _ r => (Raise e, r);
     read_file := read_file cell_hook;
     load_string := load_string cell_hook |}.

Definition cell_env (ctor : result (WasbHook (option string)))
    (rm : result unit) : Collaborators (option string) (option string) :=
  {| conf_remote_log_conn_id := "wasb_default";
     new_WasbHook := fun _ => ctor;
     render_filename := test_render;
     parent_set_context := fun _ l => l;
     parent_close := fun l => l;
     parent_read := fun _ _ metadata l =>
       (default EmptyString metadata +:+ default EmptyString l,
        {[ "end_of_log" := true ]}, l);
     path_exists := fun _ l => match l with Some _ => true | None => false end;
     open_read := fun _ l =>
       match l with Some text => Ok text | None => Raise OSError end;
     rmtree := fun _ l =>
       match rm with Ok _ => (Ok tt, None) | Raise e => (Raise e, l) end |}.

Definition cell_ok := cell_env (Ok cell_hook) (Ok tt).

(** A handler with context [ti1] set, facing the given blob and file. *)
Definition cell_ready (delete_local : bool) (r l : option string)
    : State (option string) (option string) :=
  post (set_context (C := cell_ok) ti1
          {| self := init "/logs" "wasb-logs" "airflow-logs" delete_local;
             remote := r;
             localst := l |}).

(** The same after a first access to the hook in surroundings [E]. *)
Definition cell_hooked (E : Collaborators (option string) (option string))
    (delete_local : bool) (r l : option string)
    : State (option string) (option string) :=
  post (hook (C := E) (cell_ready delete_local r l)).

(** * Properties *)

(** ** Tactics: symbolic execution of a handler method *)

Ltac unfold_monad :=
  unfold try_except, bind, ret, raise, emit, get_self, put_self, on_remote,
    on_local, res, post, events.

Ltac unfold_handler :=
  unfold close, _read, wasb_write, wasb_read, wasb_log_exists, set_context,
    hook_check_for_blob, hook_read_file, hook_load_string, hook, WasbHook_call,
    set_hook_cache, set_log_relative_path, set_upload_on_close, set_closed.

(** Case on the innermost scrutinee the goal is stuck on. *)
Ltac branch :=
  match goal with
  | |- context [match ?x with _ => _ end] =>
      lazymatch x with
      | context [match _ with _ => _ end] => fail
      | _ => destruct x eqn:?
      end
  end.

(** Use the recorded answers of the collaborators in the premises. *)
Ltac settle :=
  intros;
  repeat match goal with
         | H : negb _ = true |- _ => apply negb_true_iff in H
         | H : negb _ = false |- _ => apply negb_false_iff in H
         end;
  simplify_eq;
  repeat (match goal with
          | H : ?x = (_, _), H' : context [?x] |- _ => rewrite H in H'; cbn in H'
          end; simplify_eq);
  eauto; try congruence.

Ltac rewrite_pairs :=
  repeat match goal with
         | H : ?x = (_, _) |- context [?x] => rewrite H; cbn
         end.

(** Run the method in the goal along every path; hypotheses about the run
    are to be stated in the goal, as premises. *)
Ltac run :=
  unfold_handler; unfold_monad; cbn; repeat (branch; cbn); settle.

Section Properties.
Context {R L : Type} `{C : Collaborators R L}.

Implicit Types (st : State R L) (k : WasbHook R) (e : exn).

(** *** The cached hook *)

Lemma hook_never_changes_fields st :
  let h := self st in
  let h' := self (post (hook st)) in
  local_base h' = local_base h /\ wasb_container h' = wasb_container h /\
  remote_base h' = remote_base h /\ log_relative_path h' = log_relative_path h /\
  closed h' = closed h /\ upload_on_close h' = upload_on_close h /\
  delete_local_copy h' = delete_local_copy h /\
  remote (post (hook st)) = remote st /\ localst (post (hook st)) = localst st.
Proof. destruct st as [[] ? ?]. run; auto 10. Qed.

(** A second access returns what the first one returned and is silent
    when the first one stored a value. *)
Lemma hook_cached st v :
  res (hook st) = Ok v ->
  hook (post (hook st)) = (Ok v, post (hook st), []).
Proof. destruct st as [[] ? ?]. run; auto. Qed.

(** *** C8 *)

(** C8. The existence check never raises: it answers [false] when the hook
    property raises, when the hook is [None], and when [check_for_blob]
    raises whatever exception; otherwise it answers what [check_for_blob]
    answered. *)
Theorem wasb_log_exists_safe st (loc : string) :
  (exists b, res (wasb_log_exists loc st) = Ok b) /\
  (forall e, res (hook st) = Raise e -> res (wasb_log_exists loc st) = Ok false) /\
  (res (hook st) = Ok None -> res (wasb_log_exists loc st) = Ok false) /\
  (forall k e,
      res (hook st) = Ok (Some k) ->
      fst (check_for_blob k (wasb_container (self st)) loc (remote st)) = Raise e ->
      res (wasb_log_exists loc st) = Ok false) /\
  (forall k b,
      res (hook st) = Ok (Some k) ->
      fst (check_for_blob k (wasb_container (self st)) loc (remote st)) = Ok b ->
      res (wasb_log_exists loc st) = Ok b).
Proof.
  destruct st as [[] ? ?].
  repeat split; run.
Qed.

(** *** [close]: the guards *)

Lemma close_when_closed st :
  closed (self st) = true -> close st = (Ok tt, st, []).
Proof. destruct st as [[] ? ?]. run; auto. Qed.

Lemma close_when_raw st :
  closed (self st) = false -> upload_on_close (self st) = false ->
  close st =
    (Ok tt,
     {| self := self st; remote := remote st; localst := parent_close (localst st) |},
     [SuperClose]).
Proof. destruct st as [[] ? ?]. run; auto. Qed.

Lemma close_keeps_upload_flag st :
  upload_on_close (self (post (close st))) = upload_on_close (self st).
Proof. destruct st as [[] ? ?]. run; auto. Qed.

Lemma close_keeps_closed st :
  closed (self st) = true -> closed (self (post (close st))) = true.
Proof. intros H. rewrite close_when_closed; auto. Qed.

Lemma close_ok_marks_closed st :
  upload_on_close (self st) = true -> res (close st) = Ok tt ->
  closed (self (post (close st))) = true.
Proof. destruct st as [[] ? ?]. run; auto. Qed.

(** *** C1 *)

(** C1, as amended. When the first [close] returns normally: if
    [upload_on_close] is set, the handler is marked closed and a second
    [close] is a pure no-op (no parent close, no event at all, state
    unchanged); and whatever [upload_on_close] is, a second [close] enters
    no remote write, performs none, and deletes nothing. *)
Theorem close_twice st :
  res (close st) = Ok tt ->
  (upload_on_close (self st) = true -> close_twice_is_noop st) /\
  no_upload_no_delete (events (close (post (close st)))) = true.
Proof.
  intros Hok. split.
  - intros Hup. unfold close_twice_is_noop.
    pose proof (close_ok_marks_closed st Hup Hok) as Hc.
    split; [exact Hc | apply close_when_closed, Hc].
  - destruct (upload_on_close (self st)) eqn:Hup.
    + rewrite close_when_closed; [reflexivity | apply close_ok_marks_closed; assumption].
    + destruct (closed (self (post (close st)))) eqn:Hc.
      * rewrite close_when_closed; [reflexivity | assumption].
      * rewrite close_when_raw; [reflexivity | assumption |].
        rewrite close_keeps_upload_flag. assumption.
Qed.

(** *** [wasb_read] *)

Lemma wasb_read_ok st k (loc text : string) (return_error : bool) :
  res (hook st) = Ok (Some k) ->
  fst (read_file k (wasb_container (self st)) loc (remote st)) = Ok text ->
  res (wasb_read loc return_error st) = Ok text.
Proof. destruct st as [[] ? ?]. run. Qed.

(** The one failure the method handles: [AzureHttpError] from the hook. *)
Lemma wasb_read_azure_error st k (loc : string) (return_error : bool) :
  res (hook st) = Ok (Some k) ->
  fst (read_file k (wasb_container (self st)) loc (remote st)) = Raise AzureHttpError ->
  res (wasb_read loc return_error st)
  = Ok (if return_error then "Could not read logs from " +:+ loc else EmptyString).
Proof. destruct st as [[] ? ?]. run; destruct return_error; reflexivity. Qed.

Lemma wasb_read_other_error st k (loc : string) (return_error : bool) e :
  res (hook st) = Ok (Some k) ->
  fst (read_file k (wasb_container (self st)) loc (remote st)) = Raise e ->
  is_AzureHttpError e = false ->
  res (wasb_read loc return_error st) = Raise e.
Proof. destruct st as [[] ? ?]. run. Qed.

(** C3. Evaluation of [wasb_read] where the claim fails: when the hook
    could not be constructed (the property yields [None]) the method does
    not return an error string or the empty string, it raises
    [AttributeError], whatever [return_error] is. *)
Theorem wasb_read_without_hook_raises st (loc : string) (return_error : bool) :
  res (hook st) = Ok None ->
  res (wasb_read loc return_error st) = Raise AttributeError.
Proof. destruct st as [[] ? ?]. run. Qed.

(** *** [wasb_write] *)

(** The one failure the method handles: [AzureHttpError] from the
    overwrite, when the hook exists and nothing is to be merged. *)
Lemma wasb_write_azure_error st k (log loc : string) r :
  res (hook st) = Ok (Some k) ->
  load_string k log (wasb_container (self st)) loc true (remote st)
  = (Raise AzureHttpError, r) ->
  res (wasb_write log loc false st) = Ok tt.
Proof. destruct st as [[] ? ?]. run. Qed.

(** C4. Evaluation of [wasb_write] where the claim fails: without a hook
    the method does not return, it raises [AttributeError]. *)
Theorem wasb_write_without_hook_raises st (log loc : string) (append : bool) :
  res (hook st) = Ok None ->
  res (wasb_write log loc append st) = Raise AttributeError.
Proof. destruct st as [[] ? ?]. run. Qed.

(** The exception aborts [close]: the handler is not marked closed and
    the local copy is not removed. *)
Lemma close_aborted_without_hook st (log : string) :
  let local_loc := os_path_join (local_base (self st)) (log_relative_path (self st)) in
  closed (self st) = false -> upload_on_close (self st) = true ->
  path_exists local_loc (parent_close (localst st)) = true ->
  open_read local_loc (parent_close (localst st)) = Ok log ->
  res (hook st) = Ok None ->
  res (close st) = Raise AttributeError /\
  closed (self (post (close st))) = false /\
  no_rmtree (events (close st)) = true.
Proof. destruct st as [[] ? ?]. run. Qed.

(** C5. Append: with a hook at hand and an existence check that answers,
    [wasb_write ... append=True] hands to the overwriting [load_string]
    the old content, a newline and the new text when the location is
    present and reads back non-empty, and the new text alone when the
    location is absent or reads back empty; the remote state afterwards
    is the one that [load_string] call leaves. *)
Theorem wasb_write_append st k (log loc : string) (present : bool) (r1 : R) :
  let c := wasb_container (self st) in
  res (hook st) = Ok (Some k) ->
  check_for_blob k c loc (remote st) = (Ok present, r1) ->
  (present = false ->
     In (LoadString log c loc true) (events (wasb_write log loc true st)) /\
     remote (post (wasb_write log loc true st))
     = snd (load_string k log c loc true r1)) /\
  (forall (old : string) (r2 : R),
     present = true ->
     read_file k c loc r1 = (Ok old, r2) ->
     let merged := if is_empty old then log else old +:+ nl +:+ log in
     In (LoadString merged c loc true) (events (wasb_write log loc true st)) /\
     remote (post (wasb_write log loc true st))
     = snd (load_string k merged c loc true r2)).
Proof.
  destruct st as [[] ? ?]. cbn zeta. intros Hh Hc. split.
  - intros ->. revert Hh Hc. run; split; cbn; tauto || (rewrite_pairs; reflexivity).
  - intros old r2 -> Hr. revert Hh Hc Hr.
    run; split; cbn; tauto || (rewrite_pairs; reflexivity).
Qed.

(** *** [_read] *)

(** C2. Evaluation of [_read] where the claim fails: when the existence
    check answers absent, the parent's reader is called with no metadata
    ([None]) whatever token the caller passed, and its answer to that call
    is what [_read] returns. *)
Theorem read_fallback_drops_metadata st (ti : TaskInstance) (n : Z)
    (metadata : option string) :
  let remote_loc := os_path_join (remote_base (self st)) (render_filename ti n) in
  res (wasb_log_exists remote_loc st) = Ok false ->
  res (_read ti n metadata st) = Ok (fst (parent_read ti n None (localst st))) /\
  events (_read ti n metadata st)
  = (events (wasb_log_exists remote_loc st) ++ [SuperRead ti n None])%list.
Proof. destruct st as [[] ? ?]. run. Qed.

(** The remote branch, when [wasb_read] returns. *)
Lemma read_remote_present st (ti : TaskInstance) (n : Z)
    (metadata : option string) (text : string) :
  let remote_loc := os_path_join (remote_base (self st)) (render_filename ti n) in
  res (wasb_log_exists remote_loc st) = Ok true ->
  res (wasb_read remote_loc true (post (wasb_log_exists remote_loc st))) = Ok text ->
  res (_read ti n metadata st)
  = Ok ("*** Reading remote log from " +:+ remote_loc +:+ "." +:+ nl +:+ text +:+ nl,
        {[ "end_of_log" := true ]}) /\
  no_local_read (events (_read ti n metadata st)) = true.
Proof. destruct st as [[] ? ?]. run. Qed.

(** The path cached by [set_context] plays no part in [_read]. *)
Lemma read_ignores_cached_path st (ti : TaskInstance) (n : Z)
    (metadata : option string) (p : string) :
  let st' := post (set_log_relative_path p st) in
  res (_read ti n metadata st') = res (_read ti n metadata st) /\
  events (_read ti n metadata st') = events (_read ti n metadata st).
Proof. destruct st as [[] ? ?]. run. Qed.

(** C7. Evaluation of [_read] where the claim fails: the location is
    reported present, the remote read fails with an exception that is not
    an [AzureHttpError], and [_read] returns no text: the exception
    escapes. *)
Theorem read_remote_error_escapes st k (ti : TaskInstance) (n : Z)
    (metadata : option string) e (r1 r2 : R) :
  let remote_loc := os_path_join (remote_base (self st)) (render_filename ti n) in
  let c := wasb_container (self st) in
  res (hook st) = Ok (Some k) ->
  check_for_blob k c remote_loc (remote st) = (Ok true, r1) ->
  read_file k c remote_loc r1 = (Raise e, r2) ->
  is_AzureHttpError e = false ->
  res (_read ti n metadata st) = Raise e.
Proof. destruct st as [[] ? ?]. run. Qed.

(** *** [set_context] and the upload decision *)

Lemma set_context_post st (ti : TaskInstance) :
  post (set_context ti st)
  = {| self := {| local_base := local_base (self st);
                  wasb_container := wasb_container (self st);
                  remote_base := remote_base (self st);
                  log_relative_path := render_filename ti (try_number ti);
                  hook_cache := hook_cache (self st);
                  closed := closed (self st);
                  upload_on_close := negb (raw ti);
                  delete_local_copy := delete_local_copy (self st) |};
       remote := remote st;
       localst := parent_set_context ti (localst st) |}.
Proof. destruct st as [[] ? ?]. reflexivity. Qed.

Lemma close_upload_iff st :
  closed (self st) = false ->
  upload_attempted (events (close st)) = true <->
  upload_on_close (self st) = true /\
  local_file_exists
    (os_path_join (local_base (self st)) (log_relative_path (self st)))
    (parent_close (localst st)).
Proof.
  destruct st as [[] ? ?]. unfold local_file_exists. cbn. intros ->. split.
  - run; repeat split; eauto.
  - intros (-> & Hp & log & Hl). revert Hp Hl. run.
Qed.

Lemma close_raw_no_upload st :
  upload_on_close (self st) = false ->
  no_upload_no_delete (events (close st)) = true.
Proof. destruct st as [[] ? ?]. run. Qed.

(** C6. After [set_context ti] on a handler that is not closed, and
    whatever the task then does to the local and remote stores,
    [upload_on_close] is the negation of [ti.raw], and [close] enters
    [wasb_write] if and only if [ti.raw] is false and a log file exists at
    the joined local location when [close] looks; a raw run enters no
    remote write, performs none and deletes nothing. *)
Theorem upload_iff_not_raw_and_file st (ti : TaskInstance) (r : R) (l : L) :
  closed (self st) = false ->
  let h := self (post (set_context ti st)) in
  let st1 := {| self := h; remote := r; localst := l |} in
  let local_loc :=
    os_path_join (local_base (self st)) (render_filename ti (try_number ti)) in
  upload_on_close h = negb (raw ti) /\
  (upload_attempted (events (close st1)) = true <->
   raw ti = false /\ local_file_exists local_loc (parent_close l)) /\
  (raw ti = true -> no_upload_no_delete (events (close st1)) = true).
Proof.
  intros Hc. rewrite set_context_post. cbn zeta. split; [reflexivity | split].
  - etransitivity; [apply close_upload_iff; exact Hc |].
    cbn. rewrite negb_true_iff. reflexivity.
  - intros Hraw. apply close_raw_no_upload. cbn. rewrite Hraw. reflexivity.
Qed.

(** *** Ordering of the removal *)

Lemma rmtree_after_upload_sound (t pre post_ : list Event) (d : string)
    (seen_read seen_write : bool) :
  rmtree_after_upload seen_read seen_write t = true ->
  t = (pre ++ Rmtree d :: post_)%list ->
  (seen_read = true \/ exists p, In (OpenRead p) pre) /\
  (seen_write = true \/ exists log loc a, In (Call_wasb_write log loc a) pre) /\
  post_ = [].
Proof.
  revert t seen_read seen_write.
  induction pre as [|ev pre IH]; intros t sr sw Hchk ->; cbn in Hchk.
  - apply andb_prop in Hchk as [Hrw Hpost].
    apply andb_prop in Hrw as [-> ->].
    destruct post_; [auto | discriminate].
  - destruct ev; cbn in Hchk;
      try (destruct (IH _ _ _ Hchk eq_refl) as (Hr & Hw & Hp);
           repeat split; [ destruct Hr as [Hr | [p Hr]]; [ | right; exists p; right ]
                         | destruct Hw as [Hw | (lg & lc & a & Hw)];
                           [ | right; exists lg, lc, a; right ]
                         | ]; eauto; fail).
    + destruct (IH _ _ _ Hchk eq_refl) as (Hr & Hw & Hp).
      repeat split; eauto.
      * right. destruct Hr as [_ | [p Hr]]; [exists path; left | exists p; right]; auto.
      * destruct Hw as [Hw | (lg & lc & a & Hw)]; [auto |].
        right. exists lg, lc, a. right. exact Hw.
    + destruct (@app_cons_not_nil _ pre post_ (Rmtree d)).
      apply andb_prop in Hchk as [_ Hpost].
      destruct (pre ++ Rmtree d :: post_)%list; [reflexivity | discriminate].
    + destruct (IH _ _ _ Hchk eq_refl) as (Hr & Hw & Hp).
      repeat split; eauto.
      * destruct Hr as [Hr | [p Hr]]; [auto |]. right. exists p. right. exact Hr.
      * right. destruct Hw as [_ | (lg & lc & a & Hw)];
          [exists log, path, append; left | exists lg, lc, a; right]; auto.
Qed.

Lemma close_trace_ordered st :
  rmtree_after_upload false false (events (close st)) = true.
Proof. destruct st as [[] ? ?]. run. Qed.

(** C9. In the trace of any [close], a directory removal is the last
    event and comes after the local file was opened and [wasb_write] was
    entered; and when no log file exists at the local location (nothing is
    there, or what is there does not open as a file), no removal occurs. *)
Theorem rmtree_only_after_upload st :
  let local_loc := os_path_join (local_base (self st)) (log_relative_path (self st)) in
  (forall (pre post_ : list Event) (d : string),
      events (close st) = (pre ++ Rmtree d :: post_)%list ->
      (exists p, In (OpenRead p) pre) /\
      (exists log loc a, In (Call_wasb_write log loc a) pre) /\
      post_ = []) /\
  (~ local_file_exists local_loc (parent_close (localst st)) ->
   no_rmtree (events (close st)) = true).
Proof.
  split.
  - intros pre post_ d Heq.
    destruct (rmtree_after_upload_sound _ _ _ _ _ _ (close_trace_ordered st) Heq)
      as ([? | ?] & [? | ?] & ?); try discriminate. auto.
  - destruct st as [[] ? ?]. unfold local_file_exists.
    run; exfalso; eauto.
Qed.

(** *** A handler that never saw [set_context] *)

Lemma append_empty_r (s : string) : s +:+ EmptyString = s.
Proof. induction s as [|c s IH]; [reflexivity | exact (f_equal (String c) IH)]. Qed.

Lemma os_path_join_empty (a : string) :
  os_path_join a EmptyString
  = if is_empty a || endswith_sep a then a else a +:+ sep.
Proof.
  unfold os_path_join. change (startswith EmptyString sep) with false. cbv iota.
  destruct (is_empty a || endswith_sep a); [apply append_empty_r | reflexivity].
Qed.

(** C10. A handler fresh from [__init__] has [upload_on_close] set and an
    empty relative path. Its [close] goes past both guards: it closes the
    parent and tests the local root joined with the empty path (the root
    itself, with a trailing separator when it had none); when that opens
    as a file, [wasb_write] is entered with its content for the remote
    root joined with the empty path. *)
Theorem close_on_fresh_handler (base_log_folder wasb_log_folder container : string)
    (delete_local : bool) (r : R) (l : L) :
  let h := init base_log_folder wasb_log_folder container delete_local in
  let st := {| self := h; remote := r; localst := l |} in
  let local_loc := os_path_join base_log_folder EmptyString in
  let remote_loc := os_path_join wasb_log_folder EmptyString in
  upload_on_close h = true /\ log_relative_path h = EmptyString /\
  local_loc = (if is_empty base_log_folder || endswith_sep base_log_folder
               then base_log_folder else base_log_folder +:+ sep) /\
  remote_loc = (if is_empty wasb_log_folder || endswith_sep wasb_log_folder
                then wasb_log_folder else wasb_log_folder +:+ sep) /\
  (exists rest, events (close st) = SuperClose :: PathExists local_loc :: rest) /\
  (forall log : string,
      path_exists local_loc (parent_close l) = true ->
      open_read local_loc (parent_close l) = Ok log ->
      exists rest,
        events (close st)
        = SuperClose :: PathExists local_loc :: OpenRead local_loc
            :: Call_wasb_write log remote_loc true :: rest).
Proof.
  cbn zeta. repeat split; try apply os_path_join_empty.
  - unfold init, FileTaskHandler_init. run.
  - unfold init, FileTaskHandler_init. run.
Qed.

End Properties.

(** ** The handler on the in-memory store *)

(** The scenario of the specification: context for try 1, a local file of
    two lines, an empty remote. [close] writes the file once to the rendered
    remote path and removes the local directory; a later read is served
    from the remote. *)
Example close_then_read :
  events (close (C := env_ok) st_ready)
  = [ SuperClose;
      PathExists "/logs/d/t/1.log";
      OpenRead "/logs/d/t/1.log";
      Call_wasb_write ("line1" +:+ nl +:+ "line2") "wasb-logs/d/t/1.log" true;
      Call_wasb_log_exists "wasb-logs/d/t/1.log";
      NewWasbHook "wasb_default";
      CheckForBlob "airflow-logs" "wasb-logs/d/t/1.log";
      LoadString ("line1" +:+ nl +:+ "line2") "airflow-logs" "wasb-logs/d/t/1.log" true;
      Rmtree "/logs/d/t" ]
  /\ res (_read (C := env_ok) ti1 1 None (post (close (C := env_ok) st_ready)))
     = Ok ("*** Reading remote log from wasb-logs/d/t/1.log." +:+ nl
             +:+ "line1" +:+ nl +:+ "line2" +:+ nl,
           {[ "end_of_log" := true ]}).
Proof. split; vm_compute; reflexivity. Qed.

(** C1 fails as stated on a raw run: [close] returns before the flag is
    set, so the handler is not marked closed. *)
Lemma close_raw_not_marked_closed : ~ close_twice_is_noop (C := env_ok) st_raw.
Proof. intros [H _]. vm_compute in H. discriminate H. Qed.

(** On that handler the second [close] closes the parent again. *)
Example close_raw_repeats_parent_close :
  events (close (C := env_ok) (post (close (C := env_ok) st_raw))) = [SuperClose].
Proof. vm_compute. reflexivity. Qed.

Lemma close_twice_witness :
  res (close (C := env_ok) st_ready) = Ok tt /\
  close_twice_is_noop (C := env_ok) st_ready /\
  no_upload_no_delete
    (events (close (C := env_ok) (post (close (C := env_ok) st_ready)))) = true.
Proof.
  assert (Hok : res (close (C := env_ok) st_ready) = Ok tt)
    by (vm_compute; reflexivity).
  destruct (close_twice (C := env_ok) st_ready Hok) as [Hnoop Hsilent].
  split; [exact Hok | split; [apply Hnoop; vm_compute; reflexivity | exact Hsilent]].
Defined.

(** With a metadata-sensitive parent the result differs from what the
    parent answers to the caller's token. *)
Example read_fallback_not_passed :
  ~ fallback_passes_metadata (C := env_ok) st_ready ti1 1 (Some "tok").
Proof. unfold fallback_passes_metadata. intros H. vm_compute in H. discriminate H. Qed.

Lemma read_fallback_drops_metadata_witness :
  res (wasb_log_exists (C := env_ok)
         (os_path_join (remote_base (self st_ready)) (render_filename (Collaborators := env_ok) ti1 1))
         st_ready) = Ok false /\
  res (_read (C := env_ok) ti1 1 (Some "tok") st_ready)
  = Ok (fst (parent_read (Collaborators := env_ok) ti1 1 None (localst st_ready))) /\
  events (_read (C := env_ok) ti1 1 (Some "tok") st_ready)
  = (events (wasb_log_exists (C := env_ok)
               (os_path_join (remote_base (self st_ready))
                  (render_filename (Collaborators := env_ok) ti1 1))
               st_ready)
     ++ [SuperRead ti1 1 None])%list.
Proof.
  assert (Habsent :
            res (wasb_log_exists (C := env_ok)
                   (os_path_join (remote_base (self st_ready))
                      (render_filename (Collaborators := env_ok) ti1 1))
                   st_ready) = Ok false)
    by (vm_compute; reflexivity).
  split; [exact Habsent |].
  exact (read_fallback_drops_metadata (C := env_ok) st_ready ti1 1 (Some "tok") Habsent).
Defined.

Lemma wasb_read_without_hook_raises_witness :
  res (hook (C := env_no_hook) st_fresh) = Ok None /\
  res (wasb_read (C := env_no_hook) "wasb-logs/d/t/1.log" true st_fresh)
  = Raise AttributeError /\
  res (wasb_read (C := env_no_hook) "wasb-logs/d/t/1.log" false st_fresh)
  = Raise AttributeError.
Proof.
  assert (Hnone : res (hook (C := env_no_hook) st_fresh) = Ok None)
    by (vm_compute; reflexivity).
  split; [exact Hnone | split].
  - exact (wasb_read_without_hook_raises (C := env_no_hook) st_fresh _ true Hnone).
  - exact (wasb_read_without_hook_raises (C := env_no_hook) st_fresh _ false Hnone).
Defined.

(** The same escape with a hook at hand whose read fails otherwise than by
    [AzureHttpError]. *)
Example wasb_read_runtime_error_raises :
  res (wasb_read (C := env_failing RuntimeError) "wasb-logs/d/t/1.log" true st_fresh)
  = Raise RuntimeError.
Proof. vm_compute. reflexivity. Qed.

Lemma wasb_write_without_hook_raises_witness :
  res (hook (C := env_no_hook) st_fresh) = Ok None /\
  res (wasb_write (C := env_no_hook) "line1" "wasb-logs/d/t/1.log" true st_fresh)
  = Raise AttributeError.
Proof.
  assert (Hnone : res (hook (C := env_no_hook) st_fresh) = Ok None)
    by (vm_compute; reflexivity).
  split; [exact Hnone |].
  exact (wasb_write_without_hook_raises (C := env_no_hook) st_fresh _ _ true Hnone).
Defined.

(** [close] on that handler: the write raises, the flag stays unset and the
    local directory stays. *)
Example close_without_hook :
  let o := close (C := env_no_hook)
             (post (set_context (C := env_no_hook) ti1 st_fresh)) in
  res o = Raise AttributeError /\ closed (self (post o)) = false /\
  no_rmtree (events o) = true.
Proof. vm_compute. auto. Qed.

Lemma wasb_write_append_witness :
  res (hook (C := env_ok) st_blob_A) = Ok (Some mem_hook) /\
  remote (post (wasb_write (C := env_ok) "B" "wasb-logs/d/t/1.log" true st_blob_A))
  = one_blob ("A" +:+ nl +:+ "B").
Proof.
  assert (Hh : res (hook (C := env_ok) st_blob_A) = Ok (Some mem_hook))
    by (vm_compute; reflexivity).
  assert (Hc : check_for_blob mem_hook (wasb_container (self st_blob_A))
                 "wasb-logs/d/t/1.log" (remote st_blob_A)
               = (Ok true, one_blob "A"))
    by (vm_compute; reflexivity).
  assert (Hr : read_file mem_hook (wasb_container (self st_blob_A))
                 "wasb-logs/d/t/1.log" (one_blob "A")
               = (Ok "A", one_blob "A"))
    by (vm_compute; reflexivity).
  split; [exact Hh |].
  destruct (wasb_write_append (C := env_ok) st_blob_A mem_hook "B"
              "wasb-logs/d/t/1.log" true (one_blob "A") Hh Hc) as [_ Hpresent].
  destruct (Hpresent "A" (one_blob "A") eq_refl Hr) as [_ Hstored].
  rewrite Hstored. vm_compute. reflexivity.
Defined.

(** Absent location, and present but empty: the new text alone. *)
Example wasb_write_append_absent :
  remote (post (wasb_write (C := env_ok) "B" "wasb-logs/d/t/1.log" true st_fresh))
  = one_blob "B".
Proof. vm_compute. reflexivity. Qed.

Example wasb_write_append_empty :
  remote (post (wasb_write (C := env_ok) "B" "wasb-logs/d/t/1.log" true
                  (fresh_state false (one_blob EmptyString) one_local_file)))
  = one_blob "B".
Proof. vm_compute. reflexivity. Qed.

Lemma upload_iff_not_raw_and_file_witness :
  closed (self st_fresh) = false /\
  upload_attempted (events (close (C := env_ok) st_ready)) = true /\
  upload_attempted (events (close (C := env_ok) st_raw)) = false.
Proof.
  assert (Hc : closed (self st_fresh) = false) by reflexivity.
  split; [exact Hc | split].
  - destruct (upload_iff_not_raw_and_file (C := env_ok) st_fresh ti1 ∅ one_local_file Hc)
      as (_ & Hiff & _).
    apply Hiff. split; [reflexivity |].
    split; [vm_compute; reflexivity | exists ("line1" +:+ nl +:+ "line2")].
    vm_compute. reflexivity.
  - destruct (upload_iff_not_raw_and_file (C := env_ok) st_fresh ti1_raw ∅ one_local_file Hc)
      as (_ & Hiff & _).
    apply not_true_is_false. intros Hup. apply Hiff in Hup as [Hraw _].
    discriminate Hraw.
Defined.

Lemma read_remote_error_escapes_witness :
  res (hook (C := env_failing RuntimeError) st_fresh)
  = Ok (Some (failing_hook RuntimeError)) /\
  is_AzureHttpError RuntimeError = false /\
  res (_read (C := env_failing RuntimeError) ti1 1 None st_fresh) = Raise RuntimeError.
Proof.
  assert (Hh : res (hook (C := env_failing RuntimeError) st_fresh)
               = Ok (Some (failing_hook RuntimeError)))
    by (vm_compute; reflexivity).
  split; [exact Hh | split; [reflexivity |]].
  apply (read_remote_error_escapes (C := env_failing RuntimeError) st_fresh
           (failing_hook RuntimeError) ti1 1 None RuntimeError ∅ ∅ Hh);
    vm_compute; reflexivity.
Defined.

Lemma wasb_log_exists_safe_witness :
  res (wasb_log_exists (C := env_unreachable RuntimeError) "wasb-logs/d/t/1.log" st_fresh)
  = Ok false /\
  res (wasb_log_exists (C := env_no_hook) "wasb-logs/d/t/1.log" st_fresh) = Ok false /\
  res (wasb_log_exists (C := env_ok) "wasb-logs/d/t/1.log" st_blob_A) = Ok true.
Proof.
  split; [| split].
  - destruct (wasb_log_exists_safe (C := env_unreachable RuntimeError) st_fresh
                "wasb-logs/d/t/1.log") as (_ & _ & _ & Hraise & _).
    apply (Hraise (unreachable_hook RuntimeError) RuntimeError); vm_compute; reflexivity.
  - destruct (wasb_log_exists_safe (C := env_no_hook) st_fresh
                "wasb-logs/d/t/1.log") as (_ & _ & Hnone & _).
    apply Hnone. vm_compute. reflexivity.
  - destruct (wasb_log_exists_safe (C := env_ok) st_blob_A
                "wasb-logs/d/t/1.log") as (_ & _ & _ & _ & Hok).
    apply (Hok mem_hook true); vm_compute; reflexivity.
Defined.

Lemma rmtree_only_after_upload_witness :
  exists pre : list Event,
    events (close (C := env_ok) st_ready) = (pre ++ [Rmtree "/logs/d/t"])%list /\
    (exists p, In (OpenRead p) pre) /\
    (exists log loc a, In (Call_wasb_write log loc a) pre) /\
    no_rmtree (events (close (C := env_ok)
                         (post (set_context (C := env_ok) ti1 (fresh_state true ∅ ∅)))))
    = true.
Proof.
  exists (removelast (events (close (C := env_ok) st_ready))).
  assert (Heq : events (close (C := env_ok) st_ready)
                = (removelast (events (close (C := env_ok) st_ready))
                   ++ [Rmtree "/logs/d/t"])%list)
    by (vm_compute; reflexivity).
  split; [exact Heq |].
  destruct (rmtree_only_after_upload (C := env_ok) st_ready) as [Horder _].
  destruct (Horder _ _ _ Heq) as (Hread & Hwrite & _).
  split; [exact Hread | split; [exact Hwrite |]].
  destruct (rmtree_only_after_upload (C := env_ok)
              (post (set_context (C := env_ok) ti1 (fresh_state true ∅ ∅))))
    as [_ Habsent].
  apply Habsent. intros [Hex _]. vm_compute in Hex. discriminate Hex.
Defined.

Lemma close_on_fresh_handler_witness :
  path_exists (Collaborators := env_ok) "/logs/" {[ "/logs/" := "line1" ]} = true /\
  exists rest,
    events (close (C := env_ok)
              {| self := init "/logs" "wasb-logs" "airflow-logs" false;
                 remote := ∅;
                 localst := {[ "/logs/" := "line1" ]} |})
    = SuperClose :: PathExists "/logs/" :: OpenRead "/logs/"
        :: Call_wasb_write "line1" "wasb-logs/" true :: rest.
Proof.
  split; [vm_compute; reflexivity |].
  destruct (close_on_fresh_handler (C := env_ok) "/logs" "wasb-logs"
              "airflow-logs" false ∅ {[ "/logs/" := "line1" ]})
    as (_ & _ & _ & _ & _ & Hupload).
  apply (Hupload "line1"); vm_compute; reflexivity.
Defined.

(** On a local store where the root is a directory, the fresh handler's
    [close] finds it, fails to open it as a file, and raises. *)
Example close_fresh_on_directory :
  let o := close (C := env_ok) st_fresh in
  res o = Raise OSError /\
  events o = [SuperClose; PathExists "/logs/"; OpenRead "/logs/"] /\
  closed (self (post o)) = false.
Proof. vm_compute. auto. Qed.

(** * Further properties of the handler *)

Section MoreProperties.
Context {R L : Type} `{C : Collaborators R L}.

Implicit Types (st : State R L) (k : WasbHook R).

(** ** The hook slot *)

(** X1. Once the hook slot holds a value, a hook or [None], no method
    calls the constructor again or logs a construction failure, and the
    slot keeps that value. *)
Theorem cached_hook_is_reused st (v : option (WasbHook R)) :
  hook_cache (self st) = Some v ->
  (forall loc : string,
      no_hook_construction (events (wasb_log_exists loc st)) = true /\
      hook_cache (self (post (wasb_log_exists loc st))) = Some v) /\
  (forall (loc : string) (return_error : bool),
      no_hook_construction (events (wasb_read loc return_error st)) = true /\
      hook_cache (self (post (wasb_read loc return_error st))) = Some v) /\
  (forall (log loc : string) (append : bool),
      no_hook_construction (events (wasb_write log loc append st)) = true /\
      hook_cache (self (post (wasb_write log loc append st))) = Some v) /\
  (no_hook_construction (events (close st)) = true /\
   hook_cache (self (post (close st))) = Some v) /\
  (forall (ti : TaskInstance) (n : Z) (metadata : option string),
      no_hook_construction (events (_read ti n metadata st)) = true /\
      hook_cache (self (post (_read ti n metadata st))) = Some v).
Proof.
  destruct st as [[] ? ?]. cbn. intros ->.
  repeat split; run.
Qed.

(** X2. What the first access stores. A constructed hook is stored; an
    [AzureHttpError] from the constructor is logged and stored as [None];
    any other exception escapes and leaves the slot empty, so the next
    access calls the constructor again. *)
Theorem hook_first_access st :
  hook_cache (self st) = None ->
  (forall k, new_WasbHook conf_remote_log_conn_id = Ok k ->
     res (hook st) = Ok (Some k) /\
     hook_cache (self (post (hook st))) = Some (Some k) /\
     events (hook st) = [NewWasbHook conf_remote_log_conn_id]) /\
  (new_WasbHook conf_remote_log_conn_id = Raise AzureHttpError ->
     res (hook st) = Ok None /\
     hook_cache (self (post (hook st))) = Some None /\
     events (hook st)
     = [NewWasbHook conf_remote_log_conn_id; LogHookFailed conf_remote_log_conn_id]) /\
  (forall e, new_WasbHook conf_remote_log_conn_id = Raise e ->
     is_AzureHttpError e = false ->
     res (hook st) = Raise e /\
     hook_cache (self (post (hook st))) = None /\
     hook (post (hook st)) = hook st).
Proof.
  destruct st as [[] ? ?]. cbn. intros ->.
  repeat split; run.
Qed.

(** X3. When the constructor either returns or raises [AzureHttpError],
    [close] and [_read] call it at most once, however many times they reach
    for the hook. *)
Theorem hook_constructed_at_most_once st :
  (forall e, new_WasbHook conf_remote_log_conn_id = Raise e ->
             is_AzureHttpError e = true) ->
  (hook_constructions (events (close st)) <= 1)%nat /\
  (forall (ti : TaskInstance) (n : Z) (metadata : option string),
      (hook_constructions (events (_read ti n metadata st)) <= 1)%nat).
Proof.
  intros Hctor.
  assert (Hno : forall e, new_WasbHook conf_remote_log_conn_id = Raise e ->
                          is_AzureHttpError e = false -> False).
  { intros e He Hf. rewrite (Hctor e He) in Hf. discriminate. }
  clear Hctor. destruct st as [[] ? ?]. unfold hook_constructions.
  split; [| intros ti n metadata]; revert Hno;
    unfold_handler; unfold_monad; cbn; repeat (branch; cbn); intros Hno;
    cbn; try lia; exfalso; eauto.
Qed.

(** Split a membership in a computed trace into its cases. *)
Ltac in_trace :=
  repeat match goal with
         | H : _ \/ _ |- _ => destruct H
         | H : False |- _ => destruct H
         end;
  simplify_eq.

(** Run the method, then settle a premise of membership in its trace. *)
Ltac run_in :=
  unfold_handler; unfold_monad; cbn; repeat (branch; cbn);
  intros; in_trace;
  repeat match goal with
         | H : negb _ = true |- _ => apply negb_true_iff in H
         | H : negb _ = false |- _ => apply negb_false_iff in H
         end;
  subst; auto 10.

(** ** [set_context] and [close] *)

(** X4. [set_context] does not reopen a handler: on a closed handler it
    leaves the flag set, so the [close] that follows does nothing at all,
    and what the new context logs is never uploaded. *)
Theorem set_context_does_not_reopen st (ti : TaskInstance) :
  closed (self st) = true ->
  closed (self (post (set_context ti st))) = true /\
  close (post (set_context ti st)) = (Ok tt, post (set_context ti st), []).
Proof.
  intros Hc.
  assert (Hc' : closed (self (post (set_context ti st))) = true)
    by (rewrite set_context_post; exact Hc).
  split; [exact Hc' | apply close_when_closed, Hc'].
Qed.

(** X5. With nothing at the local location, an uploading [close] closes
    the parent, looks once, touches neither the remote store nor the hook,
    and marks the handler closed. *)
Theorem close_without_local_file st :
  let local_loc := os_path_join (local_base (self st)) (log_relative_path (self st)) in
  closed (self st) = false -> upload_on_close (self st) = true ->
  path_exists local_loc (parent_close (localst st)) = false ->
  res (close st) = Ok tt /\
  events (close st) = [SuperClose; PathExists local_loc] /\
  closed (self (post (close st))) = true /\
  remote (post (close st)) = remote st /\
  hook_cache (self (post (close st))) = hook_cache (self st).
Proof. destruct st as [[] ? ?]. run; auto 10. Qed.

(** X6. With [delete_local_copy] off, [close] removes nothing, and all it
    does to the local side is the parent's [close]. *)
Theorem close_keeps_local_copy st :
  delete_local_copy (self st) = false ->
  no_rmtree (events (close st)) = true /\
  (closed (self st) = false -> localst (post (close st)) = parent_close (localst st)).
Proof. intros Hoff. destruct st as [[] ? ?]. split; revert Hoff; run. Qed.


(** X8. A [close] that raises, whatever raised (opening the file, the
    write, the removal), leaves the handler not closed: the next [close]
    starts over. *)
Theorem close_raise_leaves_open st (e : exn) :
  res (close st) = Raise e ->
  closed (self st) = false /\ closed (self (post (close st))) = false.
Proof. destruct st as [[] ? ?]. run. Qed.

(** ** [wasb_write] *)

(** X9. Without [append], [wasb_write] neither probes nor reads the
    remote store, and the one write it performs is an overwrite of the
    given location with the given text. *)
Theorem wasb_write_no_append st (log loc : string) :
  no_remote_lookup (events (wasb_write log loc false st)) = true /\
  (forall (text c p : string) (overwrite : bool),
      In (LoadString text c p overwrite) (events (wasb_write log loc false st)) ->
      text = log /\ c = wasb_container (self st) /\ p = loc /\ overwrite = true) /\
  (forall k, res (hook st) = Ok (Some k) ->
      In (LoadString log (wasb_container (self st)) loc true)
         (events (wasb_write log loc false st))).
Proof.
  destruct st as [[] ? ?]. split; [| split].
  - run.
  - intros text c p overwrite. run_in.
  - intros k. run; cbn; tauto.
Qed.

(** X10. Appending over a blob that cannot be read: when the location is
    present and the read fails with [AzureHttpError], [wasb_read] answers
    the empty string and the overwrite carries the new text alone, replacing
    whatever the blob held. *)
Theorem wasb_write_unreadable_blob_overwritten st k (log loc : string) (r1 r2 : R) :
  let c := wasb_container (self st) in
  res (hook st) = Ok (Some k) ->
  check_for_blob k c loc (remote st) = (Ok true, r1) ->
  read_file k c loc r1 = (Raise AzureHttpError, r2) ->
  In (LoadString log c loc true) (events (wasb_write log loc true st)) /\
  remote (post (wasb_write log loc true st)) = snd (load_string k log c loc true r2).
Proof.
  destruct st as [[] ? ?]. cbn zeta.
  run; split; cbn; tauto || (rewrite_pairs; reflexivity).
Qed.

(** ** [_read] *)

(** X11. The remote branch with a read that fails by [AzureHttpError]:
    [_read] returns the header followed by the message naming the location,
    with [end_of_log] set, and does not call the parent's reader. *)
Theorem read_remote_azure_error_inline st k (ti : TaskInstance) (n : Z)
    (metadata : option string) (r1 r2 : R) :
  let remote_loc := os_path_join (remote_base (self st)) (render_filename ti n) in
  let c := wasb_container (self st) in
  res (hook st) = Ok (Some k) ->
  check_for_blob k c remote_loc (remote st) = (Ok true, r1) ->
  read_file k c remote_loc r1 = (Raise AzureHttpError, r2) ->
  res (_read ti n metadata st)
  = Ok ("*** Reading remote log from " +:+ remote_loc +:+ "." +:+ nl
          +:+ ("Could not read logs from " +:+ remote_loc) +:+ nl,
        {[ "end_of_log" := true ]}) /\
  no_local_read (events (_read ti n metadata st)) = true.
Proof. destruct st as [[] ? ?]. run. Qed.

(** X12. [_read] leaves the handler's life cycle alone: the closed flag,
    the upload flag, the cached relative path, both roots, the container and
    the delete option are after a read what they were before. *)
Theorem read_keeps_handler_fields st (ti : TaskInstance) (n : Z)
    (metadata : option string) :
  let h := self st in
  let h' := self (post (_read ti n metadata st)) in
  closed h' = closed h /\ upload_on_close h' = upload_on_close h /\
  log_relative_path h' = log_relative_path h /\
  local_base h' = local_base h /\ remote_base h' = remote_base h /\
  wasb_container h' = wasb_container h /\
  delete_local_copy h' = delete_local_copy h.
Proof. destruct st as [[] ? ?]. run; auto 10. Qed.

(** X13. What [_read] returns and does depends on the handler only through
    the two roots, the container and the hook slot: two handlers that agree
    on these, in the same surroundings, read alike, whatever their closed
    flag, upload flag, cached relative path and delete option are. *)
Theorem read_depends_on_remote_side_only st st' (ti : TaskInstance) (n : Z)
    (metadata : option string) :
  same_read_side (self st) (self st') ->
  remote st = remote st' -> localst st = localst st' ->
  res (_read ti n metadata st) = res (_read ti n metadata st') /\
  events (_read ti n metadata st) = events (_read ti n metadata st').
Proof.
  destruct st as [[] ? ?], st' as [[] ? ?]. unfold same_read_side. cbn.
  intros (-> & -> & -> & ->) -> ->. run.
Qed.

(** X14. [_read] writes nothing and deletes nothing: its trace holds no
    entry into [wasb_write], no [load_string], no directory removal and no
    parent [close]. *)
Theorem read_never_writes st (ti : TaskInstance) (n : Z) (metadata : option string) :
  no_upload_no_delete (events (_read ti n metadata st)) = true /\
  forallb (fun ev => negb (is_SuperClose ev)) (events (_read ti n metadata st)) = true.
Proof. destruct st as [[] ? ?]. split; run. Qed.

(** X15. When the remote side is out of reach (the hook is [None], the
    hook property raises, or the existence check raises whatever
    exception), [_read] answers with the parent's local read. *)
Theorem read_falls_back_when_remote_unavailable st (ti : TaskInstance) (n : Z)
    (metadata : option string) :
  let remote_loc := os_path_join (remote_base (self st)) (render_filename ti n) in
  (res (hook st) = Ok None \/
   (exists e, res (hook st) = Raise e) \/
   (exists k e, res (hook st) = Ok (Some k) /\
                fst (check_for_blob k (wasb_container (self st)) remote_loc (remote st))
                = Raise e)) ->
  res (_read ti n metadata st) = Ok (fst (parent_read ti n None (localst st))) /\
  In (SuperRead ti n None) (events (_read ti n metadata st)).
Proof.
  destruct st as [[] ? ?]. cbn zeta.
  intros [H | [[e H] | (k & e & H1 & H2)]].
  - revert H. run; split; cbn; tauto.
  - revert H. run; split; cbn; tauto.
  - revert H1 H2. run; split; cbn; tauto.
Qed.

(** ** [close], continued *)

(** X16. What [close] removes is the directory that holds the local log
    file, nothing else, and only on an open, uploading handler with the
    delete option on. *)
Theorem close_removes_only_the_log_directory st (d : string) :
  let local_loc := os_path_join (local_base (self st)) (log_relative_path (self st)) in
  In (Rmtree d) (events (close st)) ->
  d = os_path_dirname local_loc /\
  delete_local_copy (self st) = true /\ upload_on_close (self st) = true /\
  closed (self st) = false.
Proof. destruct st as [[] ? ?]. run_in. Qed.

(** X17. Round trip. On an open handler whose context is [(ti, n)], with
    the log file in place, the remote location absent, and a store that
    gives back what the overwrite stored, the [_read] of [(ti, n)] after
    [close] returns the file's content under the remote header, with
    [end_of_log] set, whether or not the local copy was or could be
    removed. *)
Theorem close_then_read_round_trip st k (ti : TaskInstance) (n : Z)
    (metadata : option string) (log : string) (r1 r2 : R) :
  let local_loc := os_path_join (local_base (self st)) (render_filename ti n) in
  let remote_loc := os_path_join (remote_base (self st)) (render_filename ti n) in
  let c := wasb_container (self st) in
  closed (self st) = false -> upload_on_close (self st) = true ->
  log_relative_path (self st) = render_filename ti n ->
  res (hook st) = Ok (Some k) ->
  path_exists local_loc (parent_close (localst st)) = true ->
  open_read local_loc (parent_close (localst st)) = Ok log ->
  check_for_blob k c remote_loc (remote st) = (Ok false, r1) ->
  load_string k log c remote_loc true r1 = (Ok tt, r2) ->
  check_for_blob k c remote_loc r2 = (Ok true, r2) ->
  read_file k c remote_loc r2 = (Ok log, r2) ->
  res (_read ti n metadata (post (close st)))
  = Ok ("*** Reading remote log from " +:+ remote_loc +:+ "." +:+ nl +:+ log +:+ nl,
        {[ "end_of_log" := true ]}).
Proof.
  destruct st as [[] ? ?]. cbn -[close _read]. intros -> -> ->. run.
Qed.

End MoreProperties.

(** ** The further properties on the one-blob store *)

Lemma cached_hook_is_reused_witness :
  hook_cache (self (cell_hooked cell_ok true None (Some "line1")))
  = Some (Some cell_hook) /\
  no_hook_construction
    (events (close (C := cell_ok) (cell_hooked cell_ok true None (Some "line1"))))
  = true /\
  hook_cache
    (self (post (close (C := cell_ok) (cell_hooked cell_ok true None (Some "line1")))))
  = Some (Some cell_hook).
Proof.
  assert (Hslot : hook_cache (self (cell_hooked cell_ok true None (Some "line1")))
                  = Some (Some cell_hook))
    by (vm_compute; reflexivity).
  split; [exact Hslot |].
  destruct (cached_hook_is_reused (C := cell_ok) _ _ Hslot) as (_ & _ & _ & Hclose & _).
  exact Hclose.
Defined.

Lemma hook_first_access_witness :
  hook_cache (self (cell_ready true None None)) = None /\
  res (hook (C := cell_env (Raise AzureHttpError) (Ok tt)) (cell_ready true None None))
  = Ok None /\
  hook_cache
    (self (post (hook (C := cell_env (Raise AzureHttpError) (Ok tt))
                   (cell_ready true None None))))
  = Some None /\
  events (hook (C := cell_env (Raise AzureHttpError) (Ok tt)) (cell_ready true None None))
  = [NewWasbHook "wasb_default"; LogHookFailed "wasb_default"].
Proof.
  assert (Hempty : hook_cache (self (cell_ready true None None)) = None)
    by (vm_compute; reflexivity).
  split; [exact Hempty |].
  destruct (hook_first_access (C := cell_env (Raise AzureHttpError) (Ok tt)) _ Hempty)
    as (_ & Hazure & _).
  exact (Hazure eq_refl).
Defined.

Lemma hook_constructed_at_most_once_witness :
  (hook_constructions
     (events (close (C := cell_env (Raise AzureHttpError) (Ok tt))
                (cell_ready true None (Some "line1")))) <= 1)%nat.
Proof.
  refine (proj1 (hook_constructed_at_most_once
                   (C := cell_env (Raise AzureHttpError) (Ok tt))
                   (cell_ready true None (Some "line1")) _)).
  intros e He. injection He as <-. reflexivity.
Defined.

Lemma set_context_does_not_reopen_witness :
  closed (self (post (close (C := cell_ok) (cell_ready true None (Some "line1"))))) = true /\
  events (close (C := cell_ok)
            (post (set_context (C := cell_ok) ti2
                     (post (close (C := cell_ok) (cell_ready true None (Some "line1")))))))
  = [].
Proof.
  assert (Hc : closed (self (post (close (C := cell_ok)
                                     (cell_ready true None (Some "line1"))))) = true)
    by (vm_compute; reflexivity).
  split; [exact Hc |].
  destruct (set_context_does_not_reopen (C := cell_ok) _ ti2 Hc) as [_ Hnoop].
  rewrite Hnoop. reflexivity.
Defined.

Lemma close_without_local_file_witness :
  path_exists (Collaborators := cell_ok) "/logs/d/t/1.log" None = false /\
  res (close (C := cell_ok) (cell_ready true (Some "A") None)) = Ok tt /\
  closed (self (post (close (C := cell_ok) (cell_ready true (Some "A") None)))) = true /\
  remote (post (close (C := cell_ok) (cell_ready true (Some "A") None))) = Some "A".
Proof.
  split; [reflexivity |].
  destruct (close_without_local_file (C := cell_ok) (cell_ready true (Some "A") None)
              ltac:(vm_compute; reflexivity) ltac:(vm_compute; reflexivity) ltac:(vm_compute; reflexivity))
    as (Hres & _ & Hclosed & Hremote & _).
  split; [exact Hres | split; [exact Hclosed | exact Hremote]].
Defined.

Lemma close_keeps_local_copy_witness :
  delete_local_copy (self (cell_ready false None (Some "line1"))) = false /\
  localst (post (close (C := cell_ok) (cell_ready false None (Some "line1"))))
  = Some "line1".
Proof.
  assert (Hoff : delete_local_copy (self (cell_ready false None (Some "line1"))) = false)
    by (vm_compute; reflexivity).
  split; [exact Hoff |].
  destruct (close_keeps_local_copy (C := cell_ok) _ Hoff) as [_ Hlocal].
  rewrite Hlocal; vm_compute; reflexivity.
Defined.


Lemma close_raise_leaves_open_witness :
  res (close (C := cell_env (Ok cell_hook) (Raise OSError))
         (cell_ready true None (Some "line1"))) = Raise OSError /\
  closed (self (post (close (C := cell_env (Ok cell_hook) (Raise OSError))
                        (cell_ready true None (Some "line1"))))) = false.
Proof.
  assert (Hraise : res (close (C := cell_env (Ok cell_hook) (Raise OSError))
                          (cell_ready true None (Some "line1"))) = Raise OSError)
    by (vm_compute; reflexivity).
  split; [exact Hraise |].
  exact (proj2 (close_raise_leaves_open
                  (C := cell_env (Ok cell_hook) (Raise OSError)) _ _ Hraise)).
Defined.

(** The upload had gone through before the removal failed, and the
    [close] that follows uploads again, after what is already there. *)
Example close_retried_appends_again :
  let E := cell_env (Ok cell_hook) (Raise OSError) in
  let st1 := post (close (C := E) (cell_ready true None (Some "line1"))) in
  remote st1 = Some "line1" /\
  remote (post (close (C := E) st1)) = Some ("line1" +:+ nl +:+ "line1").
Proof. vm_compute. auto. Qed.

Lemma wasb_write_no_append_witness :
  res (hook (C := cell_ok) (cell_ready true (Some "A") None)) = Ok (Some cell_hook) /\
  In (LoadString "B" "airflow-logs" "wasb-logs/d/t/1.log" true)
     (events (wasb_write (C := cell_ok) "B" "wasb-logs/d/t/1.log" false
                (cell_ready true (Some "A") None))) /\
  no_remote_lookup
    (events (wasb_write (C := cell_ok) "B" "wasb-logs/d/t/1.log" false
               (cell_ready true (Some "A") None))) = true.
Proof.
  assert (Hh : res (hook (C := cell_ok) (cell_ready true (Some "A") None))
               = Ok (Some cell_hook))
    by (vm_compute; reflexivity).
  split; [exact Hh |].
  destruct (wasb_write_no_append (C := cell_ok) (cell_ready true (Some "A") None)
              "B" "wasb-logs/d/t/1.log") as (Hlookup & _ & Hwrite).
  split; [exact (Hwrite cell_hook Hh) | exact Hlookup].
Defined.

Lemma wasb_write_unreadable_blob_overwritten_witness :
  remote (post (wasb_write
                  (C := cell_env (Ok (cell_hook_unreadable AzureHttpError)) (Ok tt))
                  "B" "wasb-logs/d/t/1.log" true (cell_ready true (Some "A") None)))
  = Some "B".
Proof.
  destruct (wasb_write_unreadable_blob_overwritten
              (C := cell_env (Ok (cell_hook_unreadable AzureHttpError)) (Ok tt))
              (cell_ready true (Some "A") None)
              (cell_hook_unreadable AzureHttpError)
              "B" "wasb-logs/d/t/1.log" (Some "A") (Some "A")
              ltac:(vm_compute; reflexivity) ltac:(vm_compute; reflexivity) ltac:(vm_compute; reflexivity))
    as [_ Hstored].
  rewrite Hstored. reflexivity.
Defined.

Lemma read_remote_azure_error_inline_witness :
  res (_read (C := cell_env (Ok (cell_hook_unreadable AzureHttpError)) (Ok tt))
         ti1 1 None (cell_ready true (Some "A") (Some "line1")))
  = Ok ("*** Reading remote log from wasb-logs/d/t/1.log." +:+ nl
          +:+ "Could not read logs from wasb-logs/d/t/1.log" +:+ nl,
        {[ "end_of_log" := true ]}).
Proof.
  destruct (read_remote_azure_error_inline
              (C := cell_env (Ok (cell_hook_unreadable AzureHttpError)) (Ok tt))
              (cell_ready true (Some "A") (Some "line1"))
              (cell_hook_unreadable AzureHttpError) ti1 1 None (Some "A") (Some "A")
              ltac:(vm_compute; reflexivity) ltac:(vm_compute; reflexivity) ltac:(vm_compute; reflexivity))
    as [Hres _].
  rewrite Hres. vm_compute. reflexivity.
Defined.

Lemma read_depends_on_remote_side_only_witness :
  res (_read (C := cell_ok) ti1 1 None (cell_ready true (Some "A") None))
  = res (_read (C := cell_ok) ti1 1 None
           (post (close (C := cell_ok)
                    (post (set_context (C := cell_ok) ti2
                             (cell_ready true (Some "A") None)))))).
Proof.
  refine (proj1 (read_depends_on_remote_side_only (C := cell_ok) _ _ ti1 1 None _ _ _));
    vm_compute; auto.
Defined.

Lemma read_falls_back_when_remote_unavailable_witness :
  res (hook (C := cell_env (Raise AzureHttpError) (Ok tt))
         (cell_ready true (Some "A") (Some "line1"))) = Ok None /\
  res (_read (C := cell_env (Raise AzureHttpError) (Ok tt)) ti1 1 None
         (cell_ready true (Some "A") (Some "line1")))
  = Ok ("line1", {[ "end_of_log" := true ]}).
Proof.
  assert (Hnone : res (hook (C := cell_env (Raise AzureHttpError) (Ok tt))
                         (cell_ready true (Some "A") (Some "line1"))) = Ok None)
    by (vm_compute; reflexivity).
  split; [exact Hnone |].
  destruct (read_falls_back_when_remote_unavailable
              (C := cell_env (Raise AzureHttpError) (Ok tt))
              (cell_ready true (Some "A") (Some "line1")) ti1 1 None
              (or_introl Hnone)) as [Hres _].
  rewrite Hres. vm_compute. reflexivity.
Defined.

Lemma close_removes_only_the_log_directory_witness :
  In (Rmtree "/logs/d/t")
     (events (close (C := cell_ok) (cell_ready true None (Some "line1")))) /\
  "/logs/d/t" = os_path_dirname (os_path_join "/logs" "d/t/1.log").
Proof.
  assert (Hin : In (Rmtree "/logs/d/t")
                   (events (close (C := cell_ok) (cell_ready true None (Some "line1")))))
    by (vm_compute; tauto).
  split; [exact Hin |].
  exact (proj1 (close_removes_only_the_log_directory (C := cell_ok) _ _ Hin)).
Defined.

Lemma close_then_read_round_trip_witness :
  res (_read (C := cell_ok) ti1 1 None
         (post (close (C := cell_ok) (cell_ready true None (Some "line1")))))
  = Ok ("*** Reading remote log from wasb-logs/d/t/1.log." +:+ nl +:+ "line1" +:+ nl,
        {[ "end_of_log" := true ]}).
Proof.
  rewrite (close_then_read_round_trip (C := cell_ok)
             (cell_ready true None (Some "line1")) cell_hook ti1 1 None "line1"
             None (Some "line1")
             ltac:(vm_compute; reflexivity) ltac:(vm_compute; reflexivity) ltac:(vm_compute; reflexivity) ltac:(vm_compute; reflexivity) ltac:(vm_compute; reflexivity) ltac:(vm_compute; reflexivity) ltac:(vm_compute; reflexivity) ltac:(vm_compute; reflexivity) ltac:(vm_compute; reflexivity) ltac:(vm_compute; reflexivity)).
  vm_compute. reflexivity.
Defined.
